(** * E-commerce backend: order placement, stock updates and invoices

    A shallow embedding of the Express handlers of [app.js] and of the
    Mongoose schemas [models/Order.js] and [models/Coupon.js].  The text
    of [app.js] follows that of the coupon schema in [src/models/Coupon.js].

    - Numbers: stock levels and quantities are integers ([Z]); prices,
      discounts and totals are exact rationals ([Qc]).  The rounding of
      IEEE doubles is not modelled.
    - Identifiers (ObjectIds, the [id] claim of a token) are strings.
      The product lookups are modelled for product ids that are
      well-formed ObjectIds ([is_object_id]); for the order id of the
      invoice route the cast of Mongoose is modelled: a string that is
      not a well-formed ObjectId makes the lookup throw a CastError.
    - A handler runs from its first statement to its last without another
      request interleaving; the database and the socket server are one
      explicit [World] threaded through a small handler monad. *)

From stdpp Require Import gmap strings list fin_maps numbers.
From Stdlib Require Import ZArith Qcanon Field.

Local Open Scope Z_scope.

(** ** JavaScript values and object literals *)

(** A line item [{ productId, quantity }] of a request body or of an Order. *)
Record LineItem := { productId : string; quantity : Z }.

Inductive JsVal :=
| JUndefined
| JString (s : string)
| JNumber (n : Qc)
| JDate (t : Z)
| JItems (items : list LineItem).

(** An object literal [{ k1: v1, k2: v2, ... }]. *)
Definition JsObject := list (string * JsVal).

Fixpoint obj_get (o : JsObject) (key : string) : JsVal :=
  match o with
  | [] => JUndefined
  | (k, v) :: rest => if String.eqb k key then v else obj_get rest key
  end.

Global Instance LineItem_eq_dec : EqDecision LineItem.
Proof. solve_decision. Defined.

Global Instance JsVal_eq_dec : EqDecision JsVal.
Proof. solve_decision. Defined.

(** What the JavaScript engine prints for numbers and dates. *)
Record JsEngine := {
  Number_toString : Qc → string;
  Date_toString : Z → string
}.

(** [String(v)]. *)
Definition js_String (js : JsEngine) (v : JsVal) : string :=
  match v with
  | JUndefined => "undefined"
  | JString s => s
  | JNumber n => Number_toString js n
  | JDate t => Date_toString js t
  | JItems items => String.concat "," (map (λ _, "[object Object]") items)
  end.

(** A hexadecimal digit, [0-9a-fA-F]. *)
Definition is_hex (c : Ascii.ascii) : bool :=
  let n := Ascii.nat_of_ascii c in
  ((48 <=? n) && (n <=? 57) || (65 <=? n) && (n <=? 70)
   || (97 <=? n) && (n <=? 102))%nat.

Fixpoint all_hex (s : string) : bool :=
  match s with
  | EmptyString => true
  | String c rest => is_hex c && all_hex rest
  end.

(** The strings that cast to an ObjectId: 24 hexadecimal digits. *)
Definition is_object_id (s : string) : bool :=
  (String.length s =? 24)%nat && all_hex s.

(** Truthiness of an optional string such as [couponCode]: [undefined]
    and the empty string are falsy. *)
Definition truthy (s : option string) : bool :=
  match s with
  | Some s => negb (String.eqb s EmptyString)
  | None => false
  end.

(** ** Documents *)

(** Modelled from the spec: the Product model ([models/Product.js] is not
    among the sources); the handlers read and write [name], [price] and
    [stock]. *)
Record Product := { name : string; price : Qc; stock : Z }.

(** [couponSchema] of [models/Coupon.js]. *)
Record Coupon := { code : string; discount : Qc }.

(** [orderSchema] of [models/Order.js]: the owner is the path [user]. *)
Record Order := {
  _id : string;
  user : option string;
  products : list LineItem;
  total : option Qc;
  coupon : option string;
  createdAt : Z
}.

Definition orderSchema : list string :=
  ["user"; "products"; "total"; "coupon"; "createdAt"].

Global Instance Product_eq_dec : EqDecision Product.
Proof. solve_decision. Defined.

Global Instance Coupon_eq_dec : EqDecision Coupon.
Proof. solve_decision. Defined.

Global Instance Order_eq_dec : EqDecision Order.
Proof. solve_decision. Defined.

(** A schema is strict (the Mongoose default): keys of an object that are
    not paths of the schema are dropped. *)
Definition strict (schema : list string) (o : JsObject) : JsObject :=
  filter (λ kv, kv.1 ∈ schema) o.

Definition as_id (v : JsVal) : option string :=
  match v with JString s => Some s | _ => None end.

Definition as_number (v : JsVal) : option Qc :=
  match v with JNumber n => Some n | _ => None end.

Definition as_items (v : JsVal) : list LineItem :=
  match v with JItems l => l | _ => [] end.

(** [new Order(obj)]: the schema paths present in [obj] are set, [_id] is
    generated and [createdAt] takes its default, [Date.now]. *)
Definition new_Order (oid : string) (now : Z) (obj : JsObject) : Order :=
  let doc := strict orderSchema obj in
  {| _id := oid;
     user := as_id (obj_get doc "user");
     products := as_items (obj_get doc "products");
     total := as_number (obj_get doc "total");
     coupon := as_id (obj_get doc "coupon");
     createdAt := now |}.

Definition of_option {A} (f : A → JsVal) (o : option A) : JsVal :=
  match o with Some a => f a | None => JUndefined end.

(** Reading the property [path] of an Order document; a path that the
    schema does not define reads as [undefined]. *)
Definition Order_get (o : Order) (path : string) : JsVal :=
  if String.eqb path "_id" then JString (_id o)
  else if String.eqb path "user" then of_option JString (user o)
  else if String.eqb path "products" then JItems (products o)
  else if String.eqb path "total" then of_option JNumber (total o)
  else if String.eqb path "coupon" then of_option JString (coupon o)
  else if String.eqb path "createdAt" then JDate (createdAt o)
  else JUndefined.

(** ** The world: database collections and the effects seen from outside *)

Inductive Effect :=
| ProductSaved (pid : string) (newStock : Z)
| StockUpdate (room : string) (newStock : option Z)
| OrderSaved (oid : string).

Record World := {
  db_products : gmap string Product;
  db_coupons : list Coupon;
  db_orders : list Order;
  trace : list Effect
}.

Global Instance Effect_eq_dec : EqDecision Effect.
Proof. solve_decision. Defined.

Global Instance World_eq_dec : EqDecision World.
Proof. solve_decision. Defined.

(** ** Responses *)

Inductive JsError :=
| ReferenceError (ident : string)
| TypeError (msg : string)
| CastError (value : string).

(** [populate("products.productId")]: each product id is replaced by the
    product document, or by [null] when there is none. *)
Record PopulatedItem := { item_product : option Product; item_quantity : Z }.

Record PopulatedOrder := { po_order : Order; po_items : list PopulatedItem }.

Record Invoice := {
  inv_order_id : string;
  inv_date : Z;
  inv_lines : list (string * Qc * Z);
  inv_coupon : string;
  inv_total : option Qc
}.

Inductive Body :=
| ErrorBody (error : string)
| OrderPlaced (message : string) (order : Order)
| OrderList (orders : list PopulatedOrder)
| ProductBody (product : Product).

Inductive Response :=
| Json (status : Z) (body : Body)
| Pdf (contentType contentDisposition : string) (doc : Invoice).

(** How a handler ends: it sent a response, or the promise of the async
    handler was rejected by a thrown error before it completed one. *)
Inductive Outcome :=
| Sent (r : Response)
| Rejected (e : JsError).

Global Instance JsError_eq_dec : EqDecision JsError.
Proof. solve_decision. Defined.

Global Instance PopulatedItem_eq_dec : EqDecision PopulatedItem.
Proof. solve_decision. Defined.

Global Instance PopulatedOrder_eq_dec : EqDecision PopulatedOrder.
Proof. solve_decision. Defined.

Global Instance Invoice_eq_dec : EqDecision Invoice.
Proof. solve_decision. Defined.

Global Instance Body_eq_dec : EqDecision Body.
Proof. solve_decision. Defined.

Global Instance Response_eq_dec : EqDecision Response.
Proof. solve_decision. Defined.

Global Instance Outcome_eq_dec : EqDecision Outcome.
Proof. solve_decision. Defined.

(** ** The handler monad

    A handler step reads and writes the world and either goes on with a
    value, or ends the handler: [return res.status(..).json(..)] ends it
    with a response, a thrown error ends it with a rejection. *)

Inductive Completion (A : Type) :=
| Next (a : A)
| Done (o : Outcome).

Arguments Next {A} a.
Arguments Done {A} o.

Definition Handler (A : Type) : Type := World → Completion A * World.

Global Instance Handler_ret : MRet Handler := λ A a w, (Next a, w).

Global Instance Handler_bind : MBind Handler := λ A B k m w,
  match m w with
  | (Next a, w') => k a w'
  | (Done o, w') => (Done o, w')
  end.

(** [return res.status(s).json(b)] *)
Definition reply {A} (r : Response) : Handler A := λ w, (Done (Sent r), w).

Definition throw {A} (e : JsError) : Handler A := λ w, (Done (Rejected e), w).

(** The last statement of a handler is [res.json(..)]: the value of the
    handler is the response it sends there. *)
Definition run (h : Handler Response) (w : World) : Outcome * World :=
  match h w with
  | (Next r, w') => (Sent r, w')
  | (Done o, w') => (o, w')
  end.

Definition log (e : Effect) (w : World) : World :=
  {| db_products := db_products w; db_coupons := db_coupons w;
     db_orders := db_orders w; trace := trace w ++ [e] |}.

Definition set_products (m : gmap string Product) (w : World) : World :=
  {| db_products := m; db_coupons := db_coupons w;
     db_orders := db_orders w; trace := trace w |}.

Definition add_order (o : Order) (w : World) : World :=
  {| db_products := db_products w; db_coupons := db_coupons w;
     db_orders := db_orders w ++ [o]; trace := trace w |}.

(** ** [app.js]: module scope, socket and middleware *)

(** The identifiers bound at the top level of [app.js]: those of its
    [require]s and of its own declarations.  The models it requires are
    [User], [Product], [Order] and [Category]. *)
Definition app_scope : list string :=
  ["express"; "mongoose"; "dotenv"; "cors"; "http"; "Server"; "swaggerUi";
   "swaggerJsdoc"; "cron"; "bcrypt"; "jwt"; "PDFDocument";
   "User"; "Product"; "Order"; "Category";
   "app"; "server"; "io"; "emitStockUpdate"; "authMiddleware";
   "adminMiddleware"; "swaggerSpec"; "PORT"].

(** Evaluating an identifier: unbound identifiers throw. *)
Definition global (sc : list string) (ident : string) : Handler unit :=
  if bool_decide (ident ∈ sc) then mret () else throw (ReferenceError ident).

(** [emitStockUpdate(productId, newStock)] *)
Definition emitStockUpdate (pid : string) (newStock : option Z) : Handler unit :=
  λ w, (Next (), log (StockUpdate ("product-" +:+ pid) newStock) w).

(** The claims of a verified token: [jwt.sign({ id, role }, ..)]. *)
Record JwtPayload := { jwt_id : string; jwt_role : string }.

(** The [Authorization] header as [authMiddleware] sees it. *)
Inductive Authorization :=
| NoToken
| BadToken
| Bearer (decoded : JwtPayload).

Definition authMiddleware (a : Authorization)
    (next : JwtPayload → Handler Response) : Handler Response :=
  match a with
  | NoToken => reply (Json 401 (ErrorBody "Unauthorized"))
  | BadToken => reply (Json 401 (ErrorBody "Invalid token"))
  | Bearer decoded => next decoded
  end.

(** ** Model operations (Mongoose) *)

(** [Product.findById(id)], for an [id] that is a well-formed ObjectId;
    for any other string Mongoose throws a CastError instead of giving
    [null], which this lookup does not tell apart from an id that names
    no product. *)
Definition Product_findById (pid : string) : Handler (option Product) :=
  λ w, (Next (db_products w !! pid), w).

(** [prod.save()] of a document loaded by [findById]. *)
Definition Product_save (pid : string) (p : Product) : Handler unit :=
  λ w, (Next (), log (ProductSaved pid (stock p))
                     (set_products (<[pid := p]> (db_products w)) w)).

Definition Coupon_findOne (c : string) : Handler (option Coupon) :=
  λ w, (Next (List.find (λ k, String.eqb (code k) c) (db_coupons w)), w).

Definition Order_save (o : Order) : Handler unit :=
  λ w, (Next (), log (OrderSaved (_id o)) (add_order o w)).

(** ** POST /orders *)

Record OrderRequest := {
  auth : Authorization;
  body_products : list LineItem;
  body_couponCode : option string;
  (** the ObjectId generated by [new Order] and the value of [Date.now] *)
  new_id : string;
  now : Z
}.

Definition set_stock (p : Product) (s : Z) : Product :=
  {| name := name p; price := price p; stock := s |}.

(** The [for (let item of products)] loop; [total] is its accumulator. *)
Fixpoint order_items (items : list LineItem) (total : Qc) : Handler Qc :=
  match items with
  | [] => mret total
  | item :: rest =>
      prod ← Product_findById (productId item);
      match prod with
      | None =>
          reply (Json 400 (ErrorBody "Insufficient stock or invalid product"))
      | Some p =>
          if stock p <? quantity item then
            reply (Json 400 (ErrorBody "Insufficient stock or invalid product"))
          else
            let p' := set_stock p (stock p - quantity item) in
            Product_save (productId item) p';;
            emitStockUpdate (productId item) (Some (stock p'));;
            order_items rest (total + price p' * Qc_of_Z (quantity item))%Qc
      end
  end.

(** The "Apply coupon" block: the new total and [couponUsed]. *)
Definition apply_coupon (sc : list string) (couponCode : option string)
    (total : Qc) : Handler (Qc * string) :=
  if truthy couponCode then
    global sc "Coupon";;
    coupon ← Coupon_findOne (default EmptyString couponCode);
    match coupon with
    | Some c =>
        mret ((total - (total * discount c) / Qc_of_Z 100)%Qc, code c)
    | None => mret (total, EmptyString)
    end
  else mret (total, EmptyString).

Definition place_order (sc : list string) (req : OrderRequest)
    (usr : JwtPayload) : Handler Response :=
  total ← order_items (body_products req) 0%Qc;
  tc ← apply_coupon sc (body_couponCode req) total;
  let order := new_Order (new_id req) (now req)
                 [("userId", JString (jwt_id usr));
                  ("products", JItems (body_products req));
                  ("total", JNumber tc.1);
                  ("coupon", JString tc.2)] in
  Order_save order;;
  mret (Json 200 (OrderPlaced "Order placed" order)).

(** The route as mounted in a scope [sc]. *)
Definition post_orders_in (sc : list string) (w : World) (req : OrderRequest)
    : Outcome * World :=
  run (authMiddleware (auth req) (place_order sc req)) w.

(** The route of [app.js]. *)
Definition post_orders : World → OrderRequest → Outcome * World :=
  post_orders_in app_scope.

(** ** PUT /products/:id/stock *)

Record StockRequest := {
  stock_auth : Authorization;
  (** [req.params.id] *)
  stock_id : string;
  (** [req.body.stock]; [None] when the body has no [stock] *)
  body_stock : option Z
}.

(** [Product.findByIdAndUpdate(id, { stock }, { new: true })]: an
    [undefined] value is left out of the update; update validators are
    off unless asked for, so any number is written.  As for
    [Product_findById], the [id] is taken to be a well-formed ObjectId. *)
Definition Product_findByIdAndUpdate (pid : string) (s : option Z)
    : Handler (option Product) :=
  λ w, match db_products w !! pid with
       | None => (Next None, w)
       | Some p =>
           match s with
           | None => (Next (Some p), w)
           | Some v =>
               (Next (Some (set_stock p v)),
                log (ProductSaved pid v)
                    (set_products (<[pid := set_stock p v]> (db_products w)) w))
           end
       end.

Definition update_stock (req : StockRequest) (usr : JwtPayload)
    : Handler Response :=
  product ← Product_findByIdAndUpdate (stock_id req) (body_stock req);
  match product with
  | None => reply (Json 404 (ErrorBody "Product not found"))
  | Some p =>
      emitStockUpdate (stock_id req) (body_stock req);;
      mret (Json 200 (ProductBody p))
  end.

Definition put_products_stock (w : World) (req : StockRequest)
    : Outcome * World :=
  run (authMiddleware (stock_auth req) (update_stock req)) w.

(** ** GET /orders *)

(** A document matches a query when each condition equals the stored
    value of its path. *)
Definition matches (conditions : JsObject) (o : Order) : bool :=
  forallb (λ kv, bool_decide (Order_get o kv.1 = kv.2)) conditions.

(** [Order.find(conditions)].  With [strictQuery] the conditions on paths
    that are not in the schema are removed before the query is sent; this
    option's default differs between Mongoose releases, so it is a
    parameter. *)
Definition Order_find (strictQuery : bool) (conditions : JsObject)
    : Handler (list Order) :=
  λ w, let sent := if strictQuery then strict orderSchema conditions
                   else conditions in
       (Next (List.filter (matches sent) (db_orders w)), w).

Definition populate (w : World) (o : Order) : PopulatedOrder :=
  {| po_order := o;
     po_items := map (λ it, {| item_product := db_products w !! productId it;
                               item_quantity := quantity it |})
                     (products o) |}.

Definition populate_all (os : list Order) : Handler (list PopulatedOrder) :=
  λ w, (Next (map (populate w) os), w).

Definition my_orders (strictQuery : bool) (usr : JwtPayload)
    : Handler Response :=
  found ← Order_find strictQuery [("userId", JString (jwt_id usr))];
  orders ← populate_all found;
  mret (Json 200 (OrderList orders)).

Definition get_orders (strictQuery : bool) (w : World) (a : Authorization)
    : Outcome * World :=
  run (authMiddleware a (my_orders strictQuery)) w.

(** ** GET /orders/:id/invoice *)

Record InvoiceRequest := {
  invoice_auth : Authorization;
  (** [req.params.id] *)
  invoice_id : string
}.

(** [Order.findById(id).populate("products.productId")]: the id is cast
    to an ObjectId first, and a string that does not cast makes the query
    throw. *)
Definition Order_findById (oid : string) : Handler (option PopulatedOrder) :=
  λ w, if is_object_id oid then
         (Next (populate w <$> List.find (λ o, String.eqb (_id o) oid)
                                         (db_orders w)), w)
       else (Done (Rejected (CastError oid)), w).

(** The [forEach] that prints one line per item; [item.productId.name]
    throws when the populated product is [null]. *)
Fixpoint invoice_lines (items : list PopulatedItem)
    : Handler (list (string * Qc * Z)) :=
  match items with
  | [] => mret []
  | it :: rest =>
      match item_product it with
      | None => throw (TypeError "Cannot read properties of null")
      | Some p =>
          lines ← invoice_lines rest;
          mret ((name p, price p, item_quantity it) :: lines)
      end
  end.

Definition invoice (js : JsEngine) (req : InvoiceRequest) (usr : JwtPayload)
    : Handler Response :=
  order ← Order_findById (invoice_id req);
  match order with
  | None => reply (Json 403 (ErrorBody "Access denied"))
  | Some po =>
      if negb (String.eqb (js_String js (Order_get (po_order po) "userId"))
                          (jwt_id usr)) then
        reply (Json 403 (ErrorBody "Access denied"))
      else
        lines ← invoice_lines (po_items po);
        mret (Pdf "application/pdf" "inline; filename=invoice.pdf"
                {| inv_order_id := _id (po_order po);
                   inv_date := createdAt (po_order po);
                   inv_lines := lines;
                   inv_coupon :=
                     match coupon (po_order po) with
                     | Some c => if String.eqb c EmptyString then "None" else c
                     | None => "None"
                     end;
                   inv_total := total (po_order po) |})
  end.

Definition get_orders_invoice (js : JsEngine) (w : World)
    (req : InvoiceRequest) : Outcome * World :=
  run (authMiddleware (invoice_auth req) (invoice js req)) w.

(** ** What the loop of POST /orders does, as functions of the catalog *)

(** The stock check of one line item against a catalog. *)
Definition item_ok (m : gmap string Product) (it : LineItem) : bool :=
  match m !! productId it with
  | Some p => negb (stock p <? quantity it)
  | None => false
  end.

(** The catalog after the decrement of one line item. *)
Definition decrement (m : gmap string Product) (it : LineItem)
    : gmap string Product :=
  match m !! productId it with
  | Some p => <[productId it := set_stock p (stock p - quantity it)]> m
  | None => m
  end.

Definition decrement_all (items : list LineItem) (m : gmap string Product)
    : gmap string Product :=
  foldl decrement m items.

(** Every item passes the stock check at its turn. *)
Fixpoint passes (items : list LineItem) (m : gmap string Product) : bool :=
  match items with
  | [] => true
  | it :: rest => item_ok m it && passes rest (decrement m it)
  end.

(** The stock level an item leaves behind, if its product exists. *)
Definition new_stock (m : gmap string Product) (it : LineItem) : option Z :=
  (λ p, stock p - quantity it) <$> m !! productId it.

(** The save and the notification of each item, in program order. *)
Fixpoint loop_effects (items : list LineItem) (m : gmap string Product)
    : list Effect :=
  match items with
  | [] => []
  | it :: rest =>
      match new_stock m it with
      | Some s =>
          ProductSaved (productId it) s
            :: StockUpdate ("product-" +:+ productId it) (Some s)
            :: loop_effects rest (decrement m it)
      | None => []
      end
  end.

(** Sum of unit price times quantity, each price read from the catalog as
    it is when the item is decremented. *)
Fixpoint subtotal (items : list LineItem) (m : gmap string Product) : Qc :=
  match items with
  | [] => 0%Qc
  | it :: rest =>
      (match m !! productId it with
       | Some p => price p * Qc_of_Z (quantity it)
       | None => 0
       end + subtotal rest (decrement m it))%Qc
  end.

(** The world once the items [pre] have been processed. *)
Definition after_items (pre : list LineItem) (w : World) : World :=
  {| db_products := decrement_all pre (db_products w);
     db_coupons := db_coupons w;
     db_orders := db_orders w;
     trace := trace w ++ loop_effects pre (db_products w) |}.

Definition insufficient : Response :=
  Json 400 (ErrorBody "Insufficient stock or invalid product").

(** The coupon that a supplied code resolves to. *)
Definition resolve_coupon (w : World) (couponCode : option string)
    : option Coupon :=
  if truthy couponCode then
    List.find (λ k, String.eqb (code k) (default EmptyString couponCode)) (db_coupons w)
  else None.

(** The total after the "Apply coupon" block. *)
Definition discounted (c : option Coupon) (sub : Qc) : Qc :=
  match c with
  | Some c => (sub - (sub * discount c) / Qc_of_Z 100)%Qc
  | None => sub
  end.

(** The document that [new Order({ userId, products, total, coupon })]
    builds: [userId] is not a path of the schema. *)
Definition placed_order (req : OrderRequest) (t : Qc) (couponUsed : string)
    : Order :=
  {| _id := new_id req; user := None; products := body_products req;
     total := Some t; coupon := Some couponUsed; createdAt := now req |}.


Definition is_notification (e : Effect) : bool :=
  match e with StockUpdate _ _ => true | _ => false end.

Definition stock_nonneg (m : gmap string Product) : Prop :=
  map_Forall (λ _ p, 0 ≤ stock p) m.

(** ** Example data *)

Definition idA : string := "64f000000000000000000a01".
Definition idB : string := "64f000000000000000000b02".

Definition alice : JwtPayload :=
  {| jwt_id := "64f0000000000000000000a1"; jwt_role := "user" |}.

Definition bob : JwtPayload :=
  {| jwt_id := "64f0000000000000000000b2"; jwt_role := "user" |}.

(** Product A: price 100, stock 5.  Product B: price 50, stock 0.
    Coupon SAVE10: 10 percent. *)
Definition shop : World :=
  {| db_products :=
       <[idA := {| name := "A"; price := Qc_of_Z 100; stock := 5 |}]>
       (<[idB := {| name := "B"; price := Qc_of_Z 50; stock := 0 |}]> ∅);
     db_coupons := [{| code := "SAVE10"; discount := Qc_of_Z 10 |}];
     db_orders := [];
     trace := [] |}.

Definition order_of (usr : JwtPayload) (items : list LineItem)
    (cc : option string) : OrderRequest :=
  {| auth := Bearer usr; body_products := items; body_couponCode := cc;
     new_id := "650000000000000000000001"; now := 1700000000000 |}.

Definition A3 : LineItem := {| productId := idA; quantity := 3 |}.

(** An engine for the examples; no number or date is printed in them. *)
Definition engine0 : JsEngine :=
  {| Number_toString := λ _, EmptyString; Date_toString := λ _, EmptyString |}.

Definition placed_A3 : Order :=
  placed_order (order_of alice [A3] None) (Qc_of_Z 300) EmptyString.

(** The world after alice has ordered 3 units of A. *)
Definition shop_after_A3 : World :=
  (post_orders shop (order_of alice [A3] None)).2.

(** ** Routes outside the order workflow *)

(** [authMiddleware] in front of a handler whose last response has the
    type [A]. *)
Definition authenticate {A} (a : Authorization)
    (next : JwtPayload → Handler A) : Handler A :=
  match a with
  | NoToken => reply (Json 401 (ErrorBody "Unauthorized"))
  | BadToken => reply (Json 401 (ErrorBody "Invalid token"))
  | Bearer decoded => next decoded
  end.

Definition adminMiddleware {A} (usr : JwtPayload) (next : Handler A)
    : Handler A :=
  if negb (String.eqb (jwt_role usr) "admin") then
    reply (Json 403 (ErrorBody "Forbidden: Admins only"))
  else next.

(** GET /products/:id, a route without middleware. *)
Definition get_products_id (w : World) (pid : string) : Outcome * World :=
  run (product ← Product_findById pid;
       match product with
       | None => reply (Json 404 (ErrorBody "Product not found"))
       | Some p => mret (Json 200 (ProductBody p))
       end) w.

(** A body [{ message }]. *)
Inductive Message := MessageBody (message : string).

(** [Product.findByIdAndDelete(id)], for an [id] that is a well-formed
    ObjectId; the trace records saves and socket emits, a deletion adds
    nothing to it. *)
Definition Product_findByIdAndDelete (pid : string)
    : Handler (option Product) :=
  λ w, (Next (db_products w !! pid),
        set_products (delete pid (db_products w)) w).

(** DELETE /products/:id: [Next] carries the body sent with status 200. *)
Definition delete_products_id (w : World) (a : Authorization) (pid : string)
    : Completion Message * World :=
  authenticate a (λ usr,
    adminMiddleware usr
      (Product_findByIdAndDelete pid;;
       mret (MessageBody "Product deleted"))) w.

(** POST /admin/coupons and GET /coupons: after the two middlewares the
    first thing either handler evaluates is the identifier [Coupon]
    ([new Coupon(..)], [Coupon.find()]); [rest] is what follows. *)
Definition post_admin_coupons {A} (sc : list string) (rest : Handler A)
    (w : World) (a : Authorization) : Completion A * World :=
  authenticate a (λ usr, adminMiddleware usr (global sc "Coupon";; rest)) w.

Definition get_coupons {A} (sc : list string) (rest : Handler A)
    (w : World) (a : Authorization) : Completion A * World :=
  authenticate a (λ usr, adminMiddleware usr (global sc "Coupon";; rest)) w.

(** The answer of [authMiddleware] to a request that it stops. *)
Definition denied (a : Authorization) : option Response :=
  match a with
  | NoToken => Some (Json 401 (ErrorBody "Unauthorized"))
  | BadToken => Some (Json 401 (ErrorBody "Invalid token"))
  | Bearer _ => None
  end.

(** ** Quantities and prices of a request *)

(** The quantity that the line items ask of one product, all lines for
    that product added up. *)
Fixpoint requested (items : list LineItem) (pid : string) : Z :=
  match items with
  | [] => 0
  | it :: rest =>
      if String.eqb (productId it) pid
      then quantity it + requested rest pid
      else requested rest pid
  end.


(** Name and price of a product, the fields no route below writes. *)
Definition label (p : Product) : string * Qc := (name p, price p).

Definition admin : JwtPayload :=
  {| jwt_id := "64f0000000000000000000c3"; jwt_role := "admin" |}.

Definition A2 : LineItem := {| productId := idA; quantity := 2 |}.

(** ** The loop *)

Lemma after_items_nil w : after_items [] w = w.
Proof.
  destruct w; unfold after_items; simpl. by rewrite app_nil_r.
Qed.

Lemma order_items_step_ok it rest t w p :
  db_products w !! productId it = Some p →
  (stock p <? quantity it) = false →
  order_items (it :: rest) t w =
  order_items rest (t + price p * Qc_of_Z (quantity it))%Qc (after_items [it] w).
Proof.
  intros Hp Hlt. cbn [order_items].
  unfold mbind, Handler_bind, Product_findById at 1. rewrite Hp, Hlt.
  unfold Product_save, emitStockUpdate, after_items, log, set_products; simpl.
  unfold new_stock, decrement. rewrite Hp. simpl.
  by rewrite <- app_assoc.
Qed.

Lemma order_items_step_fail it rest t w :
  item_ok (db_products w) it = false →
  order_items (it :: rest) t w = (Done (Sent insufficient), w).
Proof.
  unfold item_ok. intros H. cbn [order_items].
  unfold mbind, Handler_bind, Product_findById at 1.
  destruct (db_products w !! productId it) as [p|]; [|done].
  apply negb_false_iff in H. by rewrite H.
Qed.

Lemma after_items_cons it pre w :
  is_Some (db_products w !! productId it) →
  after_items (it :: pre) w = after_items pre (after_items [it] w).
Proof.
  intros [p Hp]. unfold after_items, decrement_all; simpl.
  unfold new_stock. rewrite Hp. simpl. f_equal.
  by rewrite <- !app_assoc.
Qed.

(** The loop over a prefix whose items all pass. *)
Lemma order_items_app pre : ∀ rest t w,
  passes pre (db_products w) = true →
  order_items (pre ++ rest) t w =
  order_items rest (t + subtotal pre (db_products w))%Qc (after_items pre w).
Proof.
  induction pre as [|it pre IH]; intros rest t w Hp.
  - rewrite after_items_nil. cbn [app subtotal]. f_equal. ring.
  - cbn [passes] in Hp.
    apply andb_true_iff in Hp as [Hok Hrest]. unfold item_ok in Hok.
    destruct (db_products w !! productId it) as [p|] eqn:Hl; [|done].
    apply negb_true_iff in Hok.
    rewrite <- app_comm_cons.
    rewrite (order_items_step_ok it _ t w p Hl Hok).
    assert (Hd : db_products (after_items [it] w) = decrement (db_products w) it)
      by reflexivity.
    rewrite IH by (by rewrite Hd).
    rewrite Hd, <- after_items_cons by (by rewrite Hl).
    cbn [subtotal]. rewrite Hl. f_equal. ring.
Qed.

Lemma order_items_passes items t w :
  passes items (db_products w) = true →
  order_items items t w =
  (Next (t + subtotal items (db_products w))%Qc, after_items items w).
Proof.
  intros Hp. rewrite <- (app_nil_r items) at 1.
  by rewrite order_items_app.
Qed.

Lemma order_items_stops pre bad post t w :
  passes pre (db_products w) = true →
  item_ok (decrement_all pre (db_products w)) bad = false →
  order_items (pre ++ bad :: post) t w =
  (Done (Sent insufficient), after_items pre w).
Proof.
  intros Hp Hbad. rewrite order_items_app by done.
  by apply order_items_step_fail.
Qed.

Lemma passes_app pre rest m :
  passes (pre ++ rest) m = passes pre m && passes rest (decrement_all pre m).
Proof.
  revert m. induction pre as [|it pre IH]; intros m; [done|].
  cbn [app passes]. rewrite IH. unfold decrement_all. cbn [foldl].
  by rewrite andb_assoc.
Qed.

(** The loop either processes every item, or stops with the 400 response
    at the first item that fails the stock check. *)
Lemma order_items_cases items : ∀ t w,
  (passes items (db_products w) = true ∧
   order_items items t w =
   (Next (t + subtotal items (db_products w))%Qc, after_items items w)) ∨
  (passes items (db_products w) = false ∧
   ∃ pre bad post,
     items = pre ++ bad :: post ∧
     passes pre (db_products w) = true ∧
     item_ok (decrement_all pre (db_products w)) bad = false ∧
     order_items items t w = (Done (Sent insufficient), after_items pre w)).
Proof.
  intros t w. destruct (passes items (db_products w)) eqn:Hp.
  - left. split; [done|]. by apply order_items_passes.
  - right. split; [done|].
    assert (∃ pre bad post, items = pre ++ bad :: post ∧
              passes pre (db_products w) = true ∧
              item_ok (decrement_all pre (db_products w)) bad = false)
      as (pre & bad & post & -> & Hpre & Hbad).
    { clear t. revert Hp. generalize (db_products w). clear w.
      induction items as [|it items IH]; intros m Hp; [done|].
      cbn [passes] in Hp. destruct (item_ok m it) eqn:Hok.
      - destruct (IH _ Hp) as (pre & bad & post & -> & Hpre & Hbad).
        exists (it :: pre), bad, post. cbn [passes]. by rewrite Hok.
      - by exists [], it, items. }
    exists pre, bad, post. repeat split; try done.
    by apply order_items_stops.
Qed.

(** ** POST /orders as a whole *)

Lemma new_Order_placed req uid t c :
  new_Order (new_id req) (now req)
    [("userId", JString uid); ("products", JItems (body_products req));
     ("total", JNumber t); ("coupon", JString c)] = placed_order req t c.
Proof. reflexivity. Qed.

Lemma apply_coupon_falsy sc cc t w :
  truthy cc = false → apply_coupon sc cc t w = (Next (t, EmptyString), w).
Proof. unfold apply_coupon. by intros ->. Qed.

Lemma apply_coupon_unbound sc cc t w :
  truthy cc = true → "Coupon" ∉ sc →
  apply_coupon sc cc t w = (Done (Rejected (ReferenceError "Coupon")), w).
Proof.
  unfold apply_coupon, global. intros -> Hsc.
  by rewrite bool_decide_eq_false_2.
Qed.

Lemma apply_coupon_bound sc cc t w :
  truthy cc = true → "Coupon" ∈ sc →
  apply_coupon sc cc t w =
  (Next (discounted (resolve_coupon w cc) t,
         from_option code EmptyString (resolve_coupon w cc)), w).
Proof.
  unfold apply_coupon, global, resolve_coupon. intros -> Hsc.
  rewrite bool_decide_eq_true_2 by done.
  unfold mbind, Handler_bind, mret, Handler_ret, Coupon_findOne.
  by destruct (List.find _ _).
Qed.

(** The outcome of a call whose items all pass, by the coupon stage. *)
Lemma place_order_passes sc req usr w :
  passes (body_products req) (db_products w) = true →
  let w1 := after_items (body_products req) w in
  let sub := subtotal (body_products req) (db_products w) in
  place_order sc req usr w =
  if truthy (body_couponCode req) && negb (bool_decide ("Coupon" ∈ sc)) then
    (Done (Rejected (ReferenceError "Coupon")), w1)
  else
    let c := resolve_coupon w (body_couponCode req) in
    let o := placed_order req (discounted c sub) (from_option code EmptyString c) in
    (Next (Json 200 (OrderPlaced "Order placed" o)),
     log (OrderSaved (new_id req)) (add_order o w1)).
Proof.
  intros Hp w1 sub. unfold place_order.
  unfold mbind at 1. unfold Handler_bind at 1.
  rewrite order_items_passes by done. fold w1.
  replace (0 + subtotal (body_products req) (db_products w))%Qc with sub
    by (subst sub; ring).
  unfold mbind at 1. unfold Handler_bind at 1.
  destruct (truthy (body_couponCode req)) eqn:Ht; cbn [andb].
  - destruct (bool_decide ("Coupon" ∈ sc)) eqn:Hsc; cbn [negb].
    + apply bool_decide_eq_true_1 in Hsc.
      rewrite apply_coupon_bound by done.
      by rewrite new_Order_placed.
    + apply bool_decide_eq_false_1 in Hsc.
      by rewrite apply_coupon_unbound.
  - rewrite apply_coupon_falsy by done.
    unfold resolve_coupon. rewrite Ht. by rewrite new_Order_placed.
Qed.

Lemma place_order_stops sc req usr w pre bad post :
  body_products req = pre ++ bad :: post →
  passes pre (db_products w) = true →
  item_ok (decrement_all pre (db_products w)) bad = false →
  place_order sc req usr w = (Done (Sent insufficient), after_items pre w).
Proof.
  intros Hitems Hpre Hbad. unfold place_order.
  unfold mbind at 1. unfold Handler_bind at 1.
  by rewrite Hitems, order_items_stops.
Qed.

(** ** Failure of the stock check: C1, C8 *)




(** C8: one line item asking for 5 units of a product whose stock is 2:
    the call answers 400 "Insufficient stock or invalid product", the
    stock is still 2 and no Order is persisted (the world is unchanged). *)
Theorem insufficient_stock_scenario w req usr pid p :
  auth req = Bearer usr →
  body_products req = [{| productId := pid; quantity := 5 |}] →
  db_products w !! pid = Some p →
  stock p = 2 →
  post_orders w req =
    (Sent (Json 400 (ErrorBody "Insufficient stock or invalid product")), w) ∧
  stock <$> db_products (post_orders w req).2 !! pid = Some 2 ∧
  db_orders (post_orders w req).2 = db_orders w.
Proof.
  intros Ha Hitems Hp Hs.
  assert (post_orders w req = (Sent insufficient, w)) as ->.
  { unfold post_orders, post_orders_in, run. rewrite Ha. cbn [authMiddleware].
    rewrite (place_order_stops _ _ _ _ [] {| productId := pid; quantity := 5 |} []);
      [by rewrite after_items_nil|done|done|].
    unfold item_ok, decrement_all. cbn. rewrite Hp, Hs. done. }
  repeat split. cbn [snd]. rewrite Hp. cbn. by rewrite Hs.
Qed.

Lemma insufficient_stock_scenario_witness :
  let w := set_products
             (<[idA := {| name := "A"; price := Qc_of_Z 100; stock := 2 |}]> ∅)
             shop in
  let req := order_of alice [{| productId := idA; quantity := 5 |}] None in
  post_orders w req =
    (Sent (Json 400 (ErrorBody "Insufficient stock or invalid product")), w) ∧
  stock <$> db_products (post_orders w req).2 !! idA = Some 2 ∧
  db_orders (post_orders w req).2 = db_orders w.
Proof.
  apply (insufficient_stock_scenario _ _ alice idA
           {| name := "A"; price := Qc_of_Z 100; stock := 2 |});
    reflexivity.
Defined.

(** ** Successful calls: C3, C7 *)

Lemma post_orders_in_passes sc w req usr :
  auth req = Bearer usr →
  passes (body_products req) (db_products w) = true →
  let w1 := after_items (body_products req) w in
  let sub := subtotal (body_products req) (db_products w) in
  post_orders_in sc w req =
  if truthy (body_couponCode req) && negb (bool_decide ("Coupon" ∈ sc)) then
    (Rejected (ReferenceError "Coupon"), w1)
  else
    let c := resolve_coupon w (body_couponCode req) in
    let o := placed_order req (discounted c sub) (from_option code EmptyString c) in
    (Sent (Json 200 (OrderPlaced "Order placed" o)),
     log (OrderSaved (new_id req)) (add_order o w1)).
Proof.
  intros Ha Hp w1 sub. unfold post_orders_in, run. rewrite Ha.
  cbn [authMiddleware]. rewrite place_order_passes by done.
  by destruct (_ && _).
Qed.

(** In [app.js] a call answered 200 carried no coupon code, and its
    Order has an empty coupon field. *)
Lemma placed_without_coupon w req msg o :
  (post_orders w req).1 = Sent (Json 200 (OrderPlaced msg o)) →
  truthy (body_couponCode req) = false ∧ coupon o = Some EmptyString.
Proof.
  intros H. unfold post_orders in H.
  destruct (auth req) as [| |usr] eqn:Ha.
  1,2: by unfold post_orders_in, run in H; rewrite Ha in H.
  destruct (order_items_cases (body_products req) 0%Qc w)
    as [[Hp _]|(_ & pre & bad & post & Hitems & Hpre & Hbad & _)].
  - rewrite (post_orders_in_passes _ w req usr Ha Hp) in H.
    destruct (truthy (body_couponCode req)) eqn:Ht; [done|].
    cbn in H. injection H as _ <-. unfold resolve_coupon. by rewrite Ht.
  - unfold post_orders_in, run in H. rewrite Ha in H. cbn [authMiddleware] in H.
    by rewrite (place_order_stops _ _ _ _ pre bad post) in H.
Qed.


(** C7, as stated, fails: an empty list of line items and a quantity of -3
    are both accepted; the Order is persisted, and the negative quantity
    raises the stock of A from 5 to 8. *)
Lemma invalid_line_items_accepted :
  let r := post_orders shop (order_of alice [] None) in
  let q := {| productId := idA; quantity := -3 |} in
  let r' := post_orders shop (order_of alice [q] None) in
  r.1 = Sent (Json 200 (OrderPlaced "Order placed"
                (placed_order (order_of alice [] None) 0 EmptyString))) ∧
  db_orders r.2 = [placed_order (order_of alice [] None) 0 EmptyString] ∧
  r'.1 = Sent (Json 200 (OrderPlaced "Order placed"
                 (placed_order (order_of alice [q] None) (Qc_of_Z (-300)) EmptyString))) ∧
  db_orders r'.2 = [placed_order (order_of alice [q] None) (Qc_of_Z (-300))
                     EmptyString] ∧
  stock <$> db_products r'.2 !! idA = Some 8.
Proof. repeat split; compute_done. Qed.

(** C7 (amended): there is no InvalidLineItem check; a call whose list of
    line items is empty or holds a non-positive quantity is processed like
    any other.  When each line item passes the stock check at its turn
    (always so for an empty list) and no coupon code is supplied, the call
    answers 200, persists the Order with total the sum of price times
    quantity, and subtracts each quantity from the stock of its product. *)
Theorem no_line_item_validation w req usr :
  auth req = Bearer usr →
  body_products req = [] ∨ Exists (λ it, quantity it ≤ 0) (body_products req) →
  truthy (body_couponCode req) = false →
  passes (body_products req) (db_products w) = true →
  let o := placed_order req (subtotal (body_products req) (db_products w)) EmptyString in
  let r := post_orders w req in
  r.1 = Sent (Json 200 (OrderPlaced "Order placed" o)) ∧
  db_orders r.2 = db_orders w ++ [o] ∧
  db_products r.2 = decrement_all (body_products req) (db_products w).
Proof.
  intros Ha _ Ht Hp o r. subst r. unfold post_orders.
  rewrite (post_orders_in_passes _ w req usr Ha Hp), Ht. cbn [andb].
  unfold resolve_coupon. by rewrite Ht.
Qed.

Lemma no_line_item_validation_witness :
  let req := order_of alice [{| productId := idA; quantity := -3 |}] None in
  let o := placed_order req (subtotal (body_products req) (db_products shop)) EmptyString in
  let r := post_orders shop req in
  r.1 = Sent (Json 200 (OrderPlaced "Order placed" o)) ∧
  db_orders r.2 = db_orders shop ++ [o] ∧
  db_products r.2 = decrement_all (body_products req) (db_products shop).
Proof.
  apply (no_line_item_validation shop _ alice).
  - reflexivity.
  - right. apply Exists_cons_hd. cbn. lia.
  - reflexivity.
  - vm_compute. reflexivity.
Defined.

(** A non-positive quantity passes the stock check of any product whose
    stock is not negative. *)
Lemma item_ok_nonpositive m it p :
  m !! productId it = Some p → 0 ≤ stock p → quantity it ≤ 0 →
  item_ok m it = true.
Proof.
  intros Hp Hs Hq. unfold item_ok. rewrite Hp.
  apply negb_true_iff, Z.ltb_ge. lia.
Qed.

(** ** Notifications and the coupon lookup: C5, C6 *)

(** [app.js] never binds the identifier [Coupon]. *)
Lemma Coupon_unbound : bool_decide ("Coupon" ∈ app_scope) = false.
Proof. reflexivity. Qed.

(** One notification for each line item that passed. *)
Lemma loop_effects_notifications pre : ∀ m,
  passes pre m = true →
  length (List.filter is_notification (loop_effects pre m)) = length pre.
Proof.
  induction pre as [|it pre IH]; intros m Hp; [done|].
  cbn [passes] in Hp. apply andb_true_iff in Hp as [Hok Hp].
  unfold item_ok in Hok. cbn [loop_effects]. unfold new_stock.
  destruct (m !! productId it) as [p|]; [|done]. cbn.
  by rewrite IH.
Qed.




(** In [app.js] every call that reaches the coupon lookup with a
    non-empty coupon code is rejected there: the stock is decremented, no
    Order is persisted and no response is sent. *)
Lemma coupon_lookup_throws w req usr :
  auth req = Bearer usr →
  passes (body_products req) (db_products w) = true →
  truthy (body_couponCode req) = true →
  post_orders w req =
  (Rejected (ReferenceError "Coupon"), after_items (body_products req) w).
Proof.
  intros Ha Hp Ht. unfold post_orders.
  by rewrite (post_orders_in_passes _ w req usr Ha Hp), Ht, Coupon_unbound.
Qed.

(** With the Coupon model in scope, a code that resolves to no coupon
    gives a successful order without discount and with an empty coupon
    field. *)
Lemma unknown_coupon_when_bound sc w req usr :
  "Coupon" ∈ sc →
  auth req = Bearer usr →
  passes (body_products req) (db_products w) = true →
  truthy (body_couponCode req) = true →
  resolve_coupon w (body_couponCode req) = None →
  let o := placed_order req (subtotal (body_products req) (db_products w)) EmptyString in
  post_orders_in sc w req =
  (Sent (Json 200 (OrderPlaced "Order placed" o)),
   log (OrderSaved (new_id req)) (add_order o (after_items (body_products req) w))).
Proof.
  intros Hsc Ha Hp Ht Hr o.
  rewrite (post_orders_in_passes _ w req usr Ha Hp), Ht, Hr.
  by rewrite bool_decide_eq_true_2.
Qed.

(** C6 on [app.js]: 3 units of A with the coupon code "NOPE", which names
    no coupon.  The loop takes the stock of A from 5 to 2, then evaluating
    the unbound identifier [Coupon] throws: no Order is persisted and no
    response is sent. *)
Theorem unknown_coupon_rejected :
  let r := post_orders shop (order_of alice [A3] (Some "NOPE")) in
  resolve_coupon shop (Some "NOPE") = None ∧
  r.1 = Rejected (ReferenceError "Coupon") ∧
  db_orders r.2 = [] ∧
  stock <$> db_products r.2 !! idA = Some 2.
Proof. repeat split; compute_done. Qed.

(** ** The stock invariant: C4 *)

Lemma decrement_nonneg m it :
  item_ok m it = true → stock_nonneg m → stock_nonneg (decrement m it).
Proof.
  unfold item_ok, decrement, stock_nonneg. intros Hok Hm.
  destruct (m !! productId it) as [p|] eqn:Hp; [|done].
  apply negb_true_iff, Z.ltb_ge in Hok.
  apply map_Forall_insert_2; [cbn; lia|done].
Qed.

Lemma decrement_all_nonneg pre : ∀ m,
  passes pre m = true → stock_nonneg m → stock_nonneg (decrement_all pre m).
Proof.
  induction pre as [|it pre IH]; intros m Hp Hm; [done|].
  cbn [passes] in Hp. apply andb_true_iff in Hp as [Hok Hp].
  unfold decrement_all. cbn [foldl]. apply IH; [done|].
  by apply decrement_nonneg.
Qed.

Lemma post_orders_in_nonneg sc w req :
  stock_nonneg (db_products w) →
  stock_nonneg (db_products (post_orders_in sc w req).2).
Proof.
  intros Hm. destruct (auth req) as [| |usr] eqn:Ha.
  1,2: by unfold post_orders_in, run; rewrite Ha.
  destruct (order_items_cases (body_products req) 0%Qc w)
    as [[Hp _]|(_ & pre & bad & post & Hitems & Hpre & Hbad & _)].
  - rewrite (post_orders_in_passes sc w req usr Ha Hp).
    destruct (_ && _); cbn; by apply decrement_all_nonneg.
  - unfold post_orders_in, run. rewrite Ha. cbn [authMiddleware].
    rewrite (place_order_stops _ _ _ _ pre bad post) by done.
    cbn. by apply decrement_all_nonneg.
Qed.

Lemma put_products_stock_writes w req usr p v :
  stock_auth req = Bearer usr →
  db_products w !! stock_id req = Some p →
  body_stock req = Some v →
  put_products_stock w req =
  (Sent (Json 200 (ProductBody (set_stock p v))),
   log (StockUpdate ("product-" +:+ stock_id req) (Some v))
     (log (ProductSaved (stock_id req) v)
        (set_products (<[stock_id req := set_stock p v]> (db_products w)) w))).
Proof.
  intros Ha Hp Hv. unfold put_products_stock, run. rewrite Ha.
  cbn [authMiddleware]. unfold update_stock.
  unfold mbind at 1. unfold Handler_bind at 1.
  unfold Product_findByIdAndUpdate. by rewrite Hp, Hv.
Qed.

(** C4, as stated, fails: any authenticated caller can set the stock of A
    to -5 through PUT /products/:id/stock. *)
Lemma negative_stock_update :
  let req := {| stock_auth := Bearer bob; stock_id := idA;
                body_stock := Some (-5) |} in
  let r := put_products_stock shop req in
  stock_nonneg (db_products shop) ∧
  r.1 = Sent (Json 200 (ProductBody
                {| name := "A"; price := Qc_of_Z 100; stock := -5 |})) ∧
  stock <$> db_products r.2 !! idA = Some (-5) ∧
  ¬ stock_nonneg (db_products r.2).
Proof.
  repeat split; compute_done.
Qed.

(** C4 (amended): order placement keeps every stock non-negative: if all
    stocks are >= 0 before a call of POST /orders, they are after it.
    PUT /products/:id/stock writes the stock of the request unchecked, so
    it keeps the stocks non-negative exactly when that stock is >= 0. *)
Theorem stock_nonneg_orders_not_updates sc w oreq sreq usr p v :
  stock_nonneg (db_products w) →
  stock_auth sreq = Bearer usr →
  db_products w !! stock_id sreq = Some p →
  body_stock sreq = Some v →
  stock_nonneg (db_products (post_orders_in sc w oreq).2) ∧
  stock <$> db_products (put_products_stock w sreq).2 !! stock_id sreq = Some v ∧
  (stock_nonneg (db_products (put_products_stock w sreq).2) ↔ 0 ≤ v).
Proof.
  intros Hm Ha Hp Hv. split; [by apply post_orders_in_nonneg|].
  rewrite (put_products_stock_writes w sreq usr p v) by done. cbn.
  rewrite lookup_insert_eq. split; [done|]. split.
  - intros H. by apply (H (stock_id sreq) (set_stock p v)), lookup_insert_eq.
  - intros H. by apply map_Forall_insert_2.
Qed.

Lemma stock_nonneg_orders_not_updates_witness :
  let sreq := {| stock_auth := Bearer bob; stock_id := idA;
                 body_stock := Some 7 |} in
  stock_nonneg
    (db_products (post_orders_in app_scope shop (order_of alice [A3] None)).2) ∧
  stock <$> db_products (put_products_stock shop sreq).2 !! idA = Some 7 ∧
  (stock_nonneg (db_products (put_products_stock shop sreq).2) ↔ 0 ≤ 7).
Proof.
  apply (stock_nonneg_orders_not_updates app_scope shop
           (order_of alice [A3] None)
           {| stock_auth := Bearer bob; stock_id := idA; body_stock := Some 7 |}
           bob {| name := "A"; price := Qc_of_Z 100; stock := 5 |} 7).
  - compute_done.
  - reflexivity.
  - reflexivity.
  - reflexivity.
Defined.

(** ** The owner of an order: C2, C9, C10 *)

(** [userId] is not a path of [orderSchema]: no Order document has it. *)
Lemma Order_get_userId o : Order_get o "userId" = JUndefined.
Proof. reflexivity. Qed.

(** Without [strictQuery] the condition on [userId] reaches the database,
    where no document has that field: the caller gets no order at all. *)
Lemma get_orders_nothing w usr :
  get_orders false w (Bearer usr) = (Sent (Json 200 (OrderList [])), w).
Proof.
  unfold get_orders, run, authMiddleware, my_orders.
  unfold mbind at 1. unfold Handler_bind at 1. unfold Order_find.
  assert (List.filter (matches [("userId", JString (jwt_id usr))])
            (db_orders w) = []) as ->; [|done].
  induction (db_orders w) as [|o os IH]; [done|].
  cbn. by rewrite IH.
Qed.

(** With [strictQuery] the condition on [userId] is removed: the caller
    gets the orders of every user. *)
Lemma get_orders_everything w usr :
  get_orders true w (Bearer usr) =
  (Sent (Json 200 (OrderList (map (populate w) (db_orders w)))), w).
Proof.
  unfold get_orders, run, authMiddleware, my_orders.
  unfold mbind at 1. unfold Handler_bind at 1. unfold Order_find.
  change (strict orderSchema [("userId", JString (jwt_id usr))]) with ([] : JsObject).
  assert (List.filter (matches []) (db_orders w) = db_orders w) as ->; [|done].
  induction (db_orders w) as [|o os IH]; [done|].
  cbn. by rewrite IH.
Qed.

(** Every Order that POST /orders persists has no owner. *)
Lemma post_orders_in_owner sc w req o :
  o ∈ db_orders (post_orders_in sc w req).2 →
  o ∈ db_orders w ∨ user o = None.
Proof.
  intros H. destruct (auth req) as [| |usr] eqn:Ha.
  1,2: by unfold post_orders_in, run in H; rewrite Ha in H; left.
  destruct (order_items_cases (body_products req) 0%Qc w)
    as [[Hp _]|(_ & pre & bad & post & Hitems & Hpre & Hbad & _)].
  - rewrite (post_orders_in_passes sc w req usr Ha Hp) in H.
    destruct (_ && _); cbn in H; [by left|].
    apply elem_of_app in H as [H|H]; [by left|].
    apply list_elem_of_singleton in H as ->. by right.
  - unfold post_orders_in, run in H. rewrite Ha in H.
    cbn [authMiddleware] in H.
    rewrite (place_order_stops _ _ _ _ pre bad post) in H by done.
    by left.
Qed.

(** C2 on [app.js]: alice orders 3 units of A.  The Order is persisted
    without owner, the key [userId] of the handler not being a path of
    the schema; GET /orders by alice then returns no order, or, with
    [strictQuery], returns it to bob as well. *)
Theorem order_owner_not_stored :
  (post_orders shop (order_of alice [A3] None)).1 =
    Sent (Json 200 (OrderPlaced "Order placed" placed_A3)) ∧
  db_orders shop_after_A3 = [placed_A3] ∧
  user placed_A3 = None ∧
  (get_orders false shop_after_A3 (Bearer alice)).1 =
    Sent (Json 200 (OrderList [])) ∧
  (get_orders true shop_after_A3 (Bearer bob)).1 =
    Sent (Json 200 (OrderList [populate shop_after_A3 placed_A3])).
Proof. repeat split; compute_done. Qed.

(** For an id that casts, [Order.findById] is the search by [_id]. *)
Lemma Order_findById_cast oid w :
  is_object_id oid = true →
  Order_findById oid w =
  (Next (populate w <$> List.find (λ o, String.eqb (_id o) oid) (db_orders w)),
   w).
Proof. unfold Order_findById. by intros ->. Qed.

(** Whoever the caller is, unless the [id] of the token is the string
    "undefined", the invoice of any order is refused. *)
Lemma invoice_refused js w req usr :
  invoice_auth req = Bearer usr →
  is_object_id (invoice_id req) = true →
  jwt_id usr ≠ "undefined" →
  get_orders_invoice js w req = (Sent (Json 403 (ErrorBody "Access denied")), w).
Proof.
  intros Ha Hid Hu. unfold get_orders_invoice, run. rewrite Ha.
  cbn [authMiddleware]. unfold invoice.
  unfold mbind at 1. unfold Handler_bind at 1.
  rewrite Order_findById_cast by done.
  destruct (List.find _ _) as [o|]; [|done]. cbn [fmap option_fmap option_map].
  cbn [populate po_order]. rewrite Order_get_userId. cbn [js_String].
  destruct (String.eqb_spec "undefined" (jwt_id usr)); [congruence|done].
Qed.

Lemma invoice_lines_resolved w (items : list LineItem) :
  Forall (λ it, is_Some (db_products w !! productId it)) items →
  ∃ lines,
    invoice_lines
      (map (λ it, {| item_product := db_products w !! productId it;
                     item_quantity := quantity it |}) items) w =
    (Next lines, w).
Proof.
  induction 1 as [|it items [p Hp] _ [lines IH]]; [by exists []|].
  exists ((name p, price p, quantity it) :: lines).
  cbn [map invoice_lines item_product item_quantity]. rewrite Hp.
  unfold mbind, Handler_bind. by rewrite IH.
Qed.

(** The branch that the handler takes when [String(order.userId)] is the
    caller's id: the response is a PDF stream. *)
Lemma invoice_granted js w req usr o :
  invoice_auth req = Bearer usr →
  is_object_id (invoice_id req) = true →
  List.find (λ o, String.eqb (_id o) (invoice_id req)) (db_orders w) = Some o →
  js_String js (Order_get o "userId") = jwt_id usr →
  Forall (λ it, is_Some (db_products w !! productId it)) (products o) →
  ∃ doc,
    get_orders_invoice js w req =
    (Sent (Pdf "application/pdf" "inline; filename=invoice.pdf" doc), w).
Proof.
  intros Ha Hid Hsome Heq Hall.
  destruct (invoice_lines_resolved w (products o) Hall) as [lines Hl].
  eexists. unfold get_orders_invoice, run. rewrite Ha. cbn [authMiddleware].
  unfold invoice. unfold mbind at 1. unfold Handler_bind at 1.
  rewrite Order_findById_cast by done.
  rewrite Hsome. cbn [fmap option_fmap option_map].
  cbn [populate po_order po_items]. rewrite Heq, String.eqb_refl. cbn [negb].
  unfold mbind, Handler_bind. by rewrite Hl.
Qed.

(** C9 on [app.js]: alice asks for the invoice of the order she has just
    placed and is refused with 403, as bob is. *)
Theorem owner_denied_invoice js :
  db_orders shop_after_A3 = [placed_A3] ∧
  (get_orders_invoice js shop_after_A3
     {| invoice_auth := Bearer alice; invoice_id := _id placed_A3 |}).1 =
    Sent (Json 403 (ErrorBody "Access denied")) ∧
  (get_orders_invoice js shop_after_A3
     {| invoice_auth := Bearer bob; invoice_id := _id placed_A3 |}).1 =
    Sent (Json 403 (ErrorBody "Access denied")).
Proof.
  split; [compute_done|].
  split.
  - by rewrite (invoice_refused js _ _ alice).
  - by rewrite (invoice_refused js _ _ bob).
Qed.

(** An id that does not cast to an ObjectId makes the lookup, and with it
    the handler, throw: no response is sent. *)
Lemma invoice_cast_error js w req usr :
  invoice_auth req = Bearer usr →
  is_object_id (invoice_id req) = false →
  get_orders_invoice js w req = (Rejected (CastError (invoice_id req)), w).
Proof.
  intros Ha Hid. unfold get_orders_invoice, run. rewrite Ha.
  cbn [authMiddleware]. unfold invoice.
  unfold mbind at 1. unfold Handler_bind at 1.
  unfold Order_findById. by rewrite Hid.
Qed.

(** C10, as stated, fails: the id "abc" matches no order, and the request
    is answered neither 403 nor 404: the lookup throws a CastError and no
    response is sent. *)
Lemma invoice_malformed_id_no_403 :
  let req := {| invoice_auth := Bearer alice; invoice_id := "abc" |} in
  let r := get_orders_invoice engine0 shop_after_A3 req in
  List.find (λ o, String.eqb (_id o) (invoice_id req))
    (db_orders shop_after_A3) = None ∧
  r.1 = Rejected (CastError "abc") ∧
  r.1 ≠ Sent (Json 403 (ErrorBody "Access denied")).
Proof. repeat split; compute_done. Qed.

(** C10 (amended): when the id of the request is a well-formed ObjectId
    and no order has it, the answer is 403 "Access denied", the very
    response given when the order exists and its [userId] differs from
    the caller's id, and not a 404; the world is left as it is. *)
Theorem invoice_unknown_order_403 js w req usr w2 req2 usr2 o2 :
  invoice_auth req = Bearer usr →
  is_object_id (invoice_id req) = true →
  List.find (λ o, String.eqb (_id o) (invoice_id req)) (db_orders w) = None →
  invoice_auth req2 = Bearer usr2 →
  is_object_id (invoice_id req2) = true →
  List.find (λ o, String.eqb (_id o) (invoice_id req2)) (db_orders w2) = Some o2 →
  js_String js (Order_get o2 "userId") ≠ jwt_id usr2 →
  get_orders_invoice js w req = (Sent (Json 403 (ErrorBody "Access denied")), w) ∧
  (get_orders_invoice js w2 req2).1 = (get_orders_invoice js w req).1.
Proof.
  intros Ha Hid Hnone Ha2 Hid2 Hsome Hneq.
  assert (get_orders_invoice js w req =
          (Sent (Json 403 (ErrorBody "Access denied")), w)) as ->.
  { unfold get_orders_invoice, run. rewrite Ha. cbn [authMiddleware].
    unfold invoice. unfold mbind at 1. unfold Handler_bind at 1.
    rewrite Order_findById_cast by done. by rewrite Hnone. }
  split; [done|].
  unfold get_orders_invoice, run. rewrite Ha2. cbn [authMiddleware].
  unfold invoice. unfold mbind at 1. unfold Handler_bind at 1.
  rewrite Order_findById_cast by done.
  rewrite Hsome. cbn [fmap option_fmap option_map].
  cbn [populate po_order].
  destruct (String.eqb_spec (js_String js (Order_get o2 "userId")) (jwt_id usr2));
    [congruence|done].
Qed.

Lemma invoice_unknown_order_403_witness :
  let req := {| invoice_auth := Bearer alice;
                invoice_id := "65ffffffffffffffffffffff" |} in
  let req2 := {| invoice_auth := Bearer bob; invoice_id := _id placed_A3 |} in
  get_orders_invoice engine0 shop_after_A3 req =
    (Sent (Json 403 (ErrorBody "Access denied")), shop_after_A3) ∧
  (get_orders_invoice engine0 shop_after_A3 req2).1 =
  (get_orders_invoice engine0 shop_after_A3 req).1.
Proof.
  apply (invoice_unknown_order_403 engine0 shop_after_A3
           {| invoice_auth := Bearer alice;
              invoice_id := "65ffffffffffffffffffffff" |} alice
           shop_after_A3
           {| invoice_auth := Bearer bob; invoice_id := _id placed_A3 |}
           bob placed_A3).
  - reflexivity.
  - reflexivity.
  - compute_done.
  - reflexivity.
  - reflexivity.
  - compute_done.
  - compute_done.
Defined.


(** ** Middleware *)

Lemma authMiddleware_authenticate a next :
  authMiddleware a next = authenticate a next.
Proof. by destruct a. Qed.

(** X1: a request without a verified token is answered 401 by every
    protected route, "Unauthorized" when there is no token and "Invalid
    token" when verification fails, and the world is left as it is. *)
Theorem unauthenticated_401 sc strictQuery js w oreq sreq ireq a pid r :
  denied a = Some r →
  auth oreq = a → stock_auth sreq = a → invoice_auth ireq = a →
  (r = Json 401 (ErrorBody "Unauthorized") ∨
   r = Json 401 (ErrorBody "Invalid token")) ∧
  post_orders_in sc w oreq = (Sent r, w) ∧
  put_products_stock w sreq = (Sent r, w) ∧
  get_orders strictQuery w a = (Sent r, w) ∧
  get_orders_invoice js w ireq = (Sent r, w) ∧
  delete_products_id w a pid = (Done (Sent r), w).
Proof.
  intros Hd Ho Hs Hi.
  unfold post_orders_in, put_products_stock, get_orders, get_orders_invoice,
    delete_products_id, run.
  rewrite Ho, Hs, Hi.
  destruct a as [| |usr]; [| |done]; injection Hd as <-; cbn; auto 10.
Qed.

Lemma unauthenticated_401_witness :
  let r := Json 401 (ErrorBody "Invalid token") in
  let oreq := {| auth := BadToken; body_products := [A3];
                 body_couponCode := None;
                 new_id := "650000000000000000000001"; now := 0 |} in
  let sreq := {| stock_auth := BadToken; stock_id := idA;
                 body_stock := Some 9 |} in
  let ireq := {| invoice_auth := BadToken; invoice_id := idA |} in
  (r = Json 401 (ErrorBody "Unauthorized") ∨
   r = Json 401 (ErrorBody "Invalid token")) ∧
  post_orders_in app_scope shop oreq = (Sent r, shop) ∧
  put_products_stock shop sreq = (Sent r, shop) ∧
  get_orders false shop BadToken = (Sent r, shop) ∧
  get_orders_invoice engine0 shop ireq = (Sent r, shop) ∧
  delete_products_id shop BadToken idA = (Done (Sent r), shop).
Proof.
  apply (unauthenticated_401 app_scope false engine0 shop
           {| auth := BadToken; body_products := [A3];
              body_couponCode := None;
              new_id := "650000000000000000000001"; now := 0 |}
           {| stock_auth := BadToken; stock_id := idA; body_stock := Some 9 |}
           {| invoice_auth := BadToken; invoice_id := idA |}
           BadToken idA); reflexivity.
Defined.

(** ** PUT /products/:id/stock, GET and DELETE /products/:id *)

Lemma get_products_id_lookup w pid :
  get_products_id w pid =
  (Sent (match db_products w !! pid with
         | Some p => Json 200 (ProductBody p)
         | None => Json 404 (ErrorBody "Product not found")
         end), w).
Proof.
  unfold get_products_id, run, mbind, Handler_bind, Product_findById.
  by destruct (db_products w !! pid).
Qed.

Lemma put_products_stock_missing w req usr :
  stock_auth req = Bearer usr →
  db_products w !! stock_id req = None →
  put_products_stock w req = (Sent (Json 404 (ErrorBody "Product not found")), w).
Proof.
  intros Ha Hp. unfold put_products_stock, run. rewrite Ha.
  cbn [authMiddleware]. unfold update_stock.
  unfold mbind at 1. unfold Handler_bind at 1.
  unfold Product_findByIdAndUpdate. by rewrite Hp.
Qed.



(** X3: the stock route is mounted behind [authMiddleware] alone.  After
    a stock update of an existing product to [v] by any authenticated
    caller, whatever the role, the update answers with, and
    GET /products/:id returns, that product with stock [v] and its name
    and price as before; the notification carries [v] to the room of the
    product; every other product is as before. *)
Theorem stock_update_then_get w req usr p v :
  stock_auth req = Bearer usr →
  db_products w !! stock_id req = Some p →
  body_stock req = Some v →
  let r := put_products_stock w req in
  let p' := {| name := name p; price := price p; stock := v |} in
  r.1 = Sent (Json 200 (ProductBody p')) ∧
  (get_products_id r.2 (stock_id req)).1 = Sent (Json 200 (ProductBody p')) ∧
  trace r.2 = trace w ++ [ProductSaved (stock_id req) v;
                          StockUpdate ("product-" +:+ stock_id req) (Some v)] ∧
  ∀ pid, pid ≠ stock_id req → db_products r.2 !! pid = db_products w !! pid.
Proof.
  intros Ha Hp Hv r p'. subst r.
  rewrite (put_products_stock_writes w req usr p v) by done.
  rewrite !get_products_id_lookup.
  cbn [fst snd log set_products db_products trace].
  rewrite lookup_insert_eq. repeat split; [by rewrite <- app_assoc|].
  intros pid Hne. by rewrite lookup_insert_ne.
Qed.

Lemma stock_update_then_get_witness :
  let req := {| stock_auth := Bearer bob; stock_id := idA;
                body_stock := Some 7 |} in
  let r := put_products_stock shop req in
  let p' := {| name := "A"; price := Qc_of_Z 100; stock := 7 |} in
  r.1 = Sent (Json 200 (ProductBody p')) ∧
  (get_products_id r.2 idA).1 = Sent (Json 200 (ProductBody p')) ∧
  trace r.2 = trace shop ++ [ProductSaved idA 7;
                             StockUpdate ("product-" +:+ idA) (Some 7)] ∧
  ∀ pid, pid ≠ idA → db_products r.2 !! pid = db_products shop !! pid.
Proof.
  apply (stock_update_then_get shop
           {| stock_auth := Bearer bob; stock_id := idA; body_stock := Some 7 |}
           bob {| name := "A"; price := Qc_of_Z 100; stock := 5 |} 7);
    reflexivity.
Defined.

(** ** When an order passes the stock check *)



Lemma decrement_lookup m it p pid :
  m !! productId it = Some p →
  decrement m it !! pid =
  if String.eqb (productId it) pid
  then Some (set_stock p (stock p - quantity it))
  else m !! pid.
Proof.
  intros Hp. unfold decrement. rewrite Hp.
  destruct (String.eqb_spec (productId it) pid) as [<-|Hne].
  - apply lookup_insert_eq.
  - by apply lookup_insert_ne.
Qed.



Lemma post_orders_in_fails sc w req usr :
  auth req = Bearer usr →
  passes (body_products req) (db_products w) = false →
  (post_orders_in sc w req).1 = Sent insufficient.
Proof.
  intros Ha Hp.
  destruct (order_items_cases (body_products req) 0%Qc w)
    as [[Hp' _]|(_ & pre & bad & post & Hitems & Hpre & Hbad & _)];
    [congruence|].
  unfold post_orders_in, run. rewrite Ha. cbn [authMiddleware].
  by rewrite (place_order_stops _ _ _ _ pre bad post).
Qed.




(** ** What an order writes *)

Lemma set_stock_same p : set_stock p (stock p - 0) = p.
Proof. destruct p. unfold set_stock. cbn. by rewrite Z.sub_0_r. Qed.

Lemma decrement_all_lookup items : ∀ m pid,
  decrement_all items m !! pid =
  (λ p, set_stock p (stock p - requested items pid)) <$> m !! pid.
Proof.
  induction items as [|it items IH]; intros m pid.
  - cbn. destruct (m !! pid) as [p|]; [|done]. cbn. by rewrite set_stock_same.
  - unfold decrement_all. cbn [foldl requested].
    fold (decrement_all items (decrement m it)). rewrite IH.
    destruct (m !! productId it) as [p|] eqn:Hl.
    + rewrite (decrement_lookup m it p pid Hl).
      destruct (String.eqb_spec (productId it) pid) as [<-|Hne]; [|done].
      rewrite Hl. cbn. unfold set_stock. cbn. do 2 f_equal. lia.
    + unfold decrement. rewrite Hl.
      destruct (String.eqb_spec (productId it) pid) as [<-|Hne]; [|done].
      by rewrite Hl.
Qed.

(** X5: when every line item passes the stock check, the stock of each
    product is afterwards its stock before minus the quantity the request
    asks of it, all lines for that product added up (so unchanged for a
    product that no line names), whether or not the coupon lookup then
    throws; name and price are as before. *)
Theorem order_stock_conservation sc w req usr pid :
  auth req = Bearer usr →
  passes (body_products req) (db_products w) = true →
  db_products (post_orders_in sc w req).2 !! pid =
  (λ p, {| name := name p; price := price p;
           stock := stock p - requested (body_products req) pid |})
    <$> db_products w !! pid.
Proof.
  intros Ha Hp. rewrite (post_orders_in_passes sc w req usr Ha Hp).
  destruct (_ && _); cbn; apply decrement_all_lookup.
Qed.

(** 3 and then 2 units of A, stock 5: the stock of A ends at 0. *)
Lemma order_stock_conservation_witness :
  passes [A3; A2] (db_products shop) = true ∧
  db_products (post_orders_in app_scope shop
                 (order_of alice [A3; A2] None)).2 !! idA =
  (λ p, {| name := name p; price := price p;
           stock := stock p - requested [A3; A2] idA |})
    <$> db_products shop !! idA.
Proof.
  split; [reflexivity|].
  apply (order_stock_conservation app_scope shop
           (order_of alice [A3; A2] None) alice idA); reflexivity.
Defined.

Lemma decrement_all_label items m pid :
  label <$> decrement_all items m !! pid = label <$> m !! pid.
Proof. rewrite decrement_all_lookup. by destruct (m !! pid). Qed.

(** The catalog that POST /orders leaves is that of the line items it
    processed. *)
Lemma post_orders_in_products sc w req :
  ∃ pre, db_products (post_orders_in sc w req).2 =
         decrement_all pre (db_products w).
Proof.
  destruct (auth req) as [| |usr] eqn:Ha.
  1,2: by exists []; unfold post_orders_in, run; rewrite Ha.
  destruct (order_items_cases (body_products req) 0%Qc w)
    as [[Hp _]|(_ & pre & bad & post & Hitems & Hpre & Hbad & _)].
  - exists (body_products req).
    rewrite (post_orders_in_passes sc w req usr Ha Hp). by destruct (_ && _).
  - exists pre. unfold post_orders_in, run. rewrite Ha. cbn [authMiddleware].
    by rewrite (place_order_stops _ _ _ _ pre bad post).
Qed.

(** X6: POST /orders and PUT /products/:id/stock write nothing but the
    stock of products that exist: whatever the request and its outcome,
    no product is created or removed and every product keeps its name and
    its price. *)
Theorem only_stock_is_written sc w oreq sreq pid :
  label <$> db_products (post_orders_in sc w oreq).2 !! pid =
    label <$> db_products w !! pid ∧
  label <$> db_products (put_products_stock w sreq).2 !! pid =
    label <$> db_products w !! pid.
Proof.
  split.
  - destruct (post_orders_in_products sc w oreq) as [pre ->].
    apply decrement_all_label.
  - destruct (stock_auth sreq) as [| |usr] eqn:Ha.
    1,2: by unfold put_products_stock, run; rewrite Ha.
    destruct (db_products w !! stock_id sreq) as [p|] eqn:Hl.
    2: by rewrite (put_products_stock_missing w sreq usr Ha Hl).
    destruct (body_stock sreq) as [v|] eqn:Hv.
    + rewrite (put_products_stock_writes w sreq usr p v Ha Hl Hv).
      cbn [snd log set_products db_products].
      destruct (decide (stock_id sreq = pid)) as [<-|Hne].
      * by rewrite lookup_insert_eq, Hl.
      * by rewrite lookup_insert_ne.
    + unfold put_products_stock, run. rewrite Ha. cbn [authMiddleware].
      unfold update_stock. unfold mbind at 1. unfold Handler_bind at 1.
      unfold Product_findByIdAndUpdate. by rewrite Hl, Hv.
Qed.

(** X7: POST /orders persists an Order only when it answers 200 "Order
    placed", and then exactly one, the Order it returns, after the orders
    already there; whenever its outcome is anything else the stored
    orders are as before.  The coupons are never written. *)
Theorem order_persisted_iff_answered_200 sc w req :
  let r := post_orders_in sc w req in
  db_coupons r.2 = db_coupons w ∧
  ((∃ o, r.1 = Sent (Json 200 (OrderPlaced "Order placed" o)) ∧
         db_orders r.2 = db_orders w ++ [o])
   ∨ (∀ msg o, r.1 ≠ Sent (Json 200 (OrderPlaced msg o))) ∧
     db_orders r.2 = db_orders w).
Proof.
  intros r. subst r.
  destruct (auth req) as [| |usr] eqn:Ha.
  1,2: unfold post_orders_in, run; rewrite Ha; cbn; split; [done|by right].
  destruct (order_items_cases (body_products req) 0%Qc w)
    as [[Hp _]|(_ & pre & bad & post & Hitems & Hpre & Hbad & _)].
  - rewrite (post_orders_in_passes sc w req usr Ha Hp).
    destruct (_ && _); cbn; (split; [done|]); [by right|]. left. eauto.
  - unfold post_orders_in, run. rewrite Ha. cbn [authMiddleware].
    rewrite (place_order_stops _ _ _ _ pre bad post) by done. cbn.
    split; [done|by right].
Qed.

(** X8: the Order that a call answered 200 returns is the Order it has
    stored: it carries the generated id, the line items of the request as
    they were sent, the creation time, and no owner. *)
Theorem returned_order_is_stored sc w req msg o :
  (post_orders_in sc w req).1 = Sent (Json 200 (OrderPlaced msg o)) →
  db_orders (post_orders_in sc w req).2 = db_orders w ++ [o] ∧
  _id o = new_id req ∧
  products o = body_products req ∧
  createdAt o = now req ∧
  user o = None.
Proof.
  intros H. destruct (auth req) as [| |usr] eqn:Ha.
  1,2: by unfold post_orders_in, run in H; rewrite Ha in H.
  destruct (passes (body_products req) (db_products w)) eqn:Hp.
  - rewrite (post_orders_in_passes sc w req usr Ha Hp) in H |- *.
    destruct (_ && _); [done|]. cbn in H. by injection H as _ <-.
  - by rewrite (post_orders_in_fails sc w req usr Ha Hp) in H.
Qed.

Lemma returned_order_is_stored_witness :
  db_orders (post_orders_in app_scope shop (order_of bob [A3; A2] None)).2
    = db_orders shop ++
      [placed_order (order_of bob [A3; A2] None) (Qc_of_Z 500) EmptyString] ∧
  _id (placed_order (order_of bob [A3; A2] None) (Qc_of_Z 500) EmptyString)
    = new_id (order_of bob [A3; A2] None) ∧
  products (placed_order (order_of bob [A3; A2] None) (Qc_of_Z 500)
              EmptyString) = body_products (order_of bob [A3; A2] None) ∧
  createdAt (placed_order (order_of bob [A3; A2] None) (Qc_of_Z 500)
               EmptyString) = now (order_of bob [A3; A2] None) ∧
  user (placed_order (order_of bob [A3; A2] None) (Qc_of_Z 500) EmptyString)
    = None.
Proof.
  apply (returned_order_is_stored app_scope shop
           (order_of bob [A3; A2] None) "Order placed").
  compute_done.
Defined.

(** X9: a call whose line items all pass the stock check emits exactly
    one stock notification per line item, a product named by two lines
    being notified twice, also when the coupon lookup then throws. *)
Theorem one_notification_per_line sc w req usr :
  auth req = Bearer usr →
  passes (body_products req) (db_products w) = true →
  length (List.filter is_notification (trace (post_orders_in sc w req).2)) =
  (length (List.filter is_notification (trace w)) +
   length (body_products req))%nat.
Proof.
  intros Ha Hp. rewrite (post_orders_in_passes sc w req usr Ha Hp).
  destruct (_ && _); cbn [snd log add_order after_items trace];
    rewrite ?List.filter_app, ?length_app, loop_effects_notifications by done;
    cbn; lia.
Qed.

Lemma one_notification_per_line_witness :
  length (List.filter is_notification
            (trace (post_orders_in app_scope shop
                      (order_of alice [A3; A2] None)).2)) =
  (length (List.filter is_notification (trace shop)) +
   length (body_products (order_of alice [A3; A2] None)))%nat.
Proof.
  apply (one_notification_per_line app_scope shop
           (order_of alice [A3; A2] None) alice); reflexivity.
Defined.

(** ** Reading routes *)

(** X11: what GET /orders answers does not depend on the caller: every
    authenticated caller gets the empty list, or, with [strictQuery], the
    orders of all users, each with its products resolved. *)
Theorem get_orders_ignores_caller strictQuery w usr :
  get_orders strictQuery w (Bearer usr) =
  (Sent (Json 200 (OrderList (if strictQuery
                               then map (populate w) (db_orders w)
                               else []))), w).
Proof.
  destruct strictQuery;
    [apply get_orders_everything|apply get_orders_nothing].
Qed.

Lemma invoice_lines_world items : ∀ w, (invoice_lines items w).2 = w.
Proof.
  induction items as [|it items IH]; intros w; [done|].
  cbn [invoice_lines]. destruct (item_product it); [|done].
  unfold mbind, Handler_bind. specialize (IH w).
  by destruct (invoice_lines items w) as [[lines|o] w'].
Qed.

(** X12: GET /orders, GET /orders/:id/invoice and GET /products/:id never
    write: whatever the request and its outcome, also when the invoice
    handler throws on a product that is gone, the world is as before. *)
Theorem reading_routes_write_nothing strictQuery js w a ireq pid :
  (get_orders strictQuery w a).2 = w ∧
  (get_orders_invoice js w ireq).2 = w ∧
  (get_products_id w pid).2 = w.
Proof.
  split; [|split].
  - destruct a as [| |usr]; [done|done|].
    destruct strictQuery;
      [by rewrite get_orders_everything|by rewrite get_orders_nothing].
  - unfold get_orders_invoice, run.
    destruct (invoice_auth ireq) as [| |usr]; [done|done|].
    cbn [authMiddleware]. unfold invoice.
    unfold mbind at 1. unfold Handler_bind at 1. unfold Order_findById.
    destruct (is_object_id (invoice_id ireq)); [|done].
    destruct (List.find _ _) as [o|]; [|done].
    cbn [fmap option_fmap option_map].
    destruct (negb _); [done|].
    unfold mbind, Handler_bind.
    pose proof (invoice_lines_world (po_items (populate w o)) w) as Hw.
    by destruct (invoice_lines _ w) as [[lines|out] w'].
  - by rewrite get_products_id_lookup.
Qed.

(** ** Admin routes *)



(** X14: a caller whose role is not "admin" is answered 403 "Forbidden:
    Admins only" by DELETE /products/:id, POST /admin/coupons and
    GET /coupons, and nothing is deleted or written. *)
Theorem admin_routes_forbidden {A} sc (rest : Handler A) w usr pid :
  jwt_role usr ≠ "admin" →
  let r := Sent (Json 403 (ErrorBody "Forbidden: Admins only")) in
  delete_products_id w (Bearer usr) pid = (Done r, w) ∧
  post_admin_coupons sc rest w (Bearer usr) = (Done r, w) ∧
  get_coupons sc rest w (Bearer usr) = (Done r, w).
Proof.
  intros Hrole r. subst r.
  unfold delete_products_id, post_admin_coupons, get_coupons, authenticate,
    adminMiddleware.
  destruct (String.eqb_spec (jwt_role usr) "admin"); [done|].
  by cbn [negb].
Qed.

Lemma admin_routes_forbidden_witness :
  let r := Sent (Json 403 (ErrorBody "Forbidden: Admins only")) in
  delete_products_id shop (Bearer bob) idA = (Done r, shop) ∧
  post_admin_coupons app_scope (mret ()) shop (Bearer bob) = (Done r, shop) ∧
  get_coupons app_scope (mret ()) shop (Bearer bob) = (Done r, shop).
Proof.
  apply (admin_routes_forbidden app_scope (mret ()) shop bob idA).
  discriminate.
Defined.

(** X15: in [app.js] the coupon routes cannot be served: for an admin,
    POST /admin/coupons and GET /coupons throw on the unbound identifier
    [Coupon] before anything else of the handler runs, whatever that is;
    no response is sent and no coupon is created. *)
Theorem coupon_routes_throw {A} (rest : Handler A) w usr :
  jwt_role usr = "admin" →
  post_admin_coupons app_scope rest w (Bearer usr) =
    (Done (Rejected (ReferenceError "Coupon")), w) ∧
  get_coupons app_scope rest w (Bearer usr) =
    (Done (Rejected (ReferenceError "Coupon")), w).
Proof.
  intros Hrole.
  unfold post_admin_coupons, get_coupons, authenticate, adminMiddleware.
  rewrite Hrole. cbn [String.eqb Ascii.eqb Bool.eqb negb].
  unfold global. rewrite Coupon_unbound. done.
Qed.

Lemma coupon_routes_throw_witness :
  post_admin_coupons app_scope (mret ()) shop (Bearer admin) =
    (Done (Rejected (ReferenceError "Coupon")), shop) ∧
  get_coupons app_scope (mret ()) shop (Bearer admin) =
    (Done (Rejected (ReferenceError "Coupon")), shop).
Proof.
  apply (coupon_routes_throw (mret ()) shop admin). reflexivity.
Defined.

(** ** Orders one after the other *)

Lemma post_orders_in_passes_products sc w req usr :
  auth req = Bearer usr →
  passes (body_products req) (db_products w) = true →
  db_products (post_orders_in sc w req).2 =
  decrement_all (body_products req) (db_products w).
Proof.
  intros Ha Hp. rewrite (post_orders_in_passes sc w req usr Ha Hp).
  by destruct (_ && _).
Qed.

(** X16: splitting an order changes nothing for the stock: when the line
    items of a request all pass the stock check, placing them as two
    orders, the first items and then the rest, passes as well and leaves
    the catalog that the single order leaves. *)
Theorem split_order_same_stock sc w req req1 req2 usr usr1 usr2 :
  auth req = Bearer usr → auth req1 = Bearer usr1 → auth req2 = Bearer usr2 →
  body_products req = body_products req1 ++ body_products req2 →
  passes (body_products req) (db_products w) = true →
  let w1 := (post_orders_in sc w req1).2 in
  passes (body_products req1) (db_products w) = true ∧
  passes (body_products req2) (db_products w1) = true ∧
  db_products (post_orders_in sc w1 req2).2 =
  db_products (post_orders_in sc w req).2.
Proof.
  intros Ha Ha1 Ha2 Hitems Hp w1. subst w1.
  pose proof Hp as Hp'. rewrite Hitems, passes_app in Hp'.
  apply andb_true_iff in Hp' as [Hp1 Hp2].
  rewrite (post_orders_in_passes_products sc w req1 usr1 Ha1 Hp1).
  repeat split; [done..|].
  rewrite (post_orders_in_passes_products sc _ req2 usr2 Ha2)
    by by rewrite (post_orders_in_passes_products sc w req1 usr1 Ha1 Hp1).
  rewrite (post_orders_in_passes_products sc w req1 usr1 Ha1 Hp1).
  rewrite (post_orders_in_passes_products sc w req usr Ha Hp), Hitems.
  unfold decrement_all. by rewrite foldl_app.
Qed.

Lemma split_order_same_stock_witness :
  let w1 := (post_orders_in app_scope shop (order_of alice [A3] None)).2 in
  passes (body_products (order_of alice [A3] None)) (db_products shop) = true ∧
  passes (body_products (order_of bob [A2] None)) (db_products w1) = true ∧
  db_products (post_orders_in app_scope w1 (order_of bob [A2] None)).2 =
  db_products (post_orders_in app_scope shop (order_of alice [A3; A2] None)).2.
Proof.
  apply (split_order_same_stock app_scope shop
           (order_of alice [A3; A2] None) (order_of alice [A3] None)
           (order_of bob [A2] None) alice alice bob); reflexivity.
Defined.
